(** * verify.py: structure verifier of the Nexus project

    A shallow embedding of [verify.py] and the properties of its
    specification.  The script tests a fixed manifest of paths with
    [os.path.isfile] / [os.path.isdir], prints one line per entry, keeps three
    locals ([all_passed], [total_files], [checked_files]) and returns 0 or 1.

    Conventions.
    - A Python [str] is a [string] holding its UTF-8 bytes, which is what
      reaches standard output.
    - A Python [int] is a [Z].
    - The operating system is an explicit [world]: the process's working
      directory, the file system as a function from absolute path strings to
      what [stat(2)] answers there, the text written to standard output (one
      element per [print] call, its terminating newline left implicit) and a
      log of the system calls issued.  The one string that is no absolute
      path and still reaches the file system is the empty one, the empty
      path as the process gave it; a file system answers [ENOENT] there.
    - Standard output accepts whatever is written to it: [print] does not
      fail.
    - Code that can raise runs in a state-and-exception monad [Py]; the
      module global [__file__] is the argument [file] of [main]. *)

From Stdlib Require Import String Ascii List ZArith Lia Bool DecimalString.
Import ListNotations.
Local Open Scope string_scope.
Local Open Scope Z_scope.

(** ** Strings *)

Definition LF : string := String "010" "".

(** [s * n] on a Python string. *)
Fixpoint str_mul (s : string) (n : nat) : string :=
  match n with
  | O => ""
  | S k => s ++ str_mul s k
  end.

(** [str(n)] on a Python int, as the f-string [{n}] formats it. *)
Definition str_int (n : Z) : string := NilZero.string_of_int (Z.to_int n).

Definition starts_with (p s : string) : bool := String.prefix p s.

(** [s.split(sep)] for a one-character separator. *)
Fixpoint split_on (sep : ascii) (s : string) : list string :=
  match s with
  | EmptyString => [""]
  | String c rest =>
      if Ascii.eqb c sep then "" :: split_on sep rest
      else match split_on sep rest with
           | [] => [String c ""]
           | w :: ws => String c w :: ws
           end
  end.

(** [sep.join(l)]. *)
Fixpoint str_join (sep : string) (l : list string) : string :=
  match l with
  | [] => ""
  | [x] => x
  | x :: rest => x ++ sep ++ str_join sep rest
  end.

(** ** Colours (lines 9-12) *)

Definition ESC : string := String "027" "".
Definition GREEN : string := ESC ++ "[92m".
Definition RED : string := ESC ++ "[91m".
Definition YELLOW : string := ESC ++ "[93m".
Definition RESET : string := ESC ++ "[0m".

(** ** The operating system *)

Inductive errno := ENOENT | EACCES | ELOOP | ENOTDIR | ENAMETOOLONG | EIO.

(** The node at the end of a path: a regular file, a directory (with
    whether the process may search it) or something else (a device, a FIFO,
    a socket). *)
Inductive node :=
| Regular
| Directory (searchable : bool)
| Other.

(** What [stat(2)], which follows symbolic links, answers at an absolute
    path: the node there, or an error. *)
Inductive stat_result :=
| StOk (n : node)
| StErr (e : errno).

Inductive syscall :=
| SysChdir (abs : string)
| SysStat (abs : string).

Record world := mkWorld {
  cwd : string;
  fs : string -> stat_result;
  stdout : list string;
  syslog : list syscall
}.

(** How the kernel reads a path handed to it by a process whose working
    directory is [base].  The empty path is not joined to the working
    directory: it stays the empty string, which names nothing, and [stat] and
    [chdir] answer [ENOENT] there on every file system ([os.path.isdir('')]
    is [False] in any directory). *)
Definition resolve (base path : string) : string :=
  if String.eqb path "" then ""
  else if starts_with "/" path then path else base ++ "/" ++ path.

Definition S_ISREG (n : node) : bool :=
  match n with Regular => true | _ => false end.

Definition S_ISDIR (n : node) : bool :=
  match n with Directory _ => true | _ => false end.

(** ** The monad of Python code: state and exceptions *)

Inductive exn :=
| OSError (e : errno)
| ValueError.

Inductive outcome (A : Type) :=
| Ok (a : A)
| Raise (x : exn).
Arguments Ok {A} a.
Arguments Raise {A} x.

Definition Py (A : Type) : Type := world -> outcome A * world.

Definition ret {A} (a : A) : Py A := fun w => (Ok a, w).

Definition bind {A B} (m : Py A) (k : A -> Py B) : Py B :=
  fun w => match m w with
           | (Ok a, w') => k a w'
           | (Raise x, w') => (Raise x, w')
           end.

(** [try: body / except (OSError, ValueError): handler]; the two are all the
    exceptions there are here. *)
Definition try_except {A} (body : Py A) (handler : exn -> Py A) : Py A :=
  fun w => match body w with
           | (Ok a, w') => (Ok a, w')
           | (Raise x, w') => handler x w'
           end.

Declare Scope py_scope.
Delimit Scope py_scope with py.
Notation "x <- m ;; k" := (bind m (fun x => k))
  (at level 61, m at next level, right associativity) : py_scope.
Notation "m ;; k" := (bind m (fun _ => k))
  (at level 61, right associativity) : py_scope.
Local Open Scope py_scope.

(** [for x in l: body], threading the locals the body assigns. *)
Fixpoint for_each {A L} (l : list A) (body : A -> L -> Py L) (locals : L) : Py L :=
  match l with
  | [] => ret locals
  | x :: rest => locals' <- body x locals ;; for_each rest body locals'
  end.

(** ** Library calls the script makes *)

(** [print(s)]. *)
Definition print (s : string) : Py unit :=
  fun w => (Ok tt, mkWorld (cwd w) (fs w) (stdout w ++ [s]) (syslog w)).

(** [os.stat(path)]: the node at [path], or [OSError]. *)
Definition os_stat (path : string) : Py node :=
  fun w => let abs := resolve (cwd w) path in
           let w' := mkWorld (cwd w) (fs w) (stdout w) (syslog w ++ [SysStat abs]) in
           match fs w abs with
           | StOk n => (Ok n, w')
           | StErr e => (Raise (OSError e), w')
           end.

(** [os.path.isfile(path)]: [os.stat] inside [try], [False] when it raises,
    otherwise [S_ISREG] of the mode. *)
Definition os_path_isfile (path : string) : Py bool :=
  try_except (st <- os_stat path ;; ret (S_ISREG st))
             (fun _ => ret false).

(** [os.path.isdir(path)]: the same with [S_ISDIR]. *)
Definition os_path_isdir (path : string) : Py bool :=
  try_except (st <- os_stat path ;; ret (S_ISDIR st))
             (fun _ => ret false).

(** Why [chdir(2)] refuses a node, if it does. *)
Definition chdir_error (r : stat_result) : option errno :=
  match r with
  | StOk (Directory true) => None
  | StOk (Directory false) => Some EACCES
  | StOk Regular | StOk Other => Some ENOTDIR
  | StErr e => Some e
  end.

(** [os.chdir(path)]: raises [OSError] unless [path] is a directory the
    process may search. *)
Definition os_chdir (path : string) : Py unit :=
  fun w => let abs := resolve (cwd w) path in
           let log := (syslog w ++ [SysChdir abs])%list in
           match chdir_error (fs w abs) with
           | None => (Ok tt, mkWorld abs (fs w) (stdout w) log)
           | Some e => (Raise (OSError e), mkWorld (cwd w) (fs w) (stdout w) log)
           end.

(** [pathlib.Path] on POSIX: an anchor and the components after it. *)
Record PurePath := mkPath {
  anchor : string;
  parts : list string
}.

(** [Path(s)]: empty and [.] components are dropped; exactly two leading
    slashes are kept as the anchor. *)
Definition Path (s : string) : PurePath :=
  mkPath
    (if starts_with "//" s && negb (starts_with "///" s) then "//"
     else if starts_with "/" s then "/" else "")
    (filter (fun c => negb (String.eqb c "") && negb (String.eqb c "."))
            (split_on "/" s)).

(** [p.parent]. *)
Definition parent (p : PurePath) : PurePath :=
  mkPath (anchor p) (removelast (parts p)).

(** [os.fspath(p)], which is [str(p)]. *)
Definition fspath (p : PurePath) : string :=
  match anchor p, parts p with
  | "", [] => "."
  | a, ps => a ++ str_join "/" ps
  end.

(** ** check_file (lines 14-21) and check_dir (lines 23-30) *)

Definition check_file (path name : string) : Py bool :=
  b <- os_path_isfile path ;;
  if b then
    print (GREEN ++ "✓" ++ RESET ++ " " ++ name) ;;
    ret true
  else
    print (RED ++ "✗" ++ RESET ++ " " ++ name ++ " (NOT FOUND)") ;;
    ret false.

Definition check_dir (path name : string) : Py bool :=
  b <- os_path_isdir path ;;
  if b then
    print (GREEN ++ "✓" ++ RESET ++ " " ++ name ++ "/") ;;
    ret true
  else
    print (RED ++ "✗" ++ RESET ++ " " ++ name ++ "/ (NOT FOUND)") ;;
    ret false.

(** ** main (lines 32-132) *)

(** The dict [checks] (lines 38-80); a dict iterates in insertion order. *)
Definition checks : list (string * list (string * string)) :=
  [ ("Documentation",
      [ ("README.md", "README");
        ("PROJECT_SPEC.md", "Project Specification");
        ("SETUP.md", "Setup Guide");
        ("STATUS.md", "Implementation Status");
        ("SUMMARY.md", "Project Summary") ]);
    ("Backend",
      [ ("backend/go.mod", "Go modules");
        ("backend/.env.example", ".env example");
        ("backend/cmd/api/main.go", "API Server");
        ("backend/cmd/ws/main.go", "WebSocket Server");
        ("backend/cmd/media/main.go", "Media Server");
        ("backend/internal/models/types.go", "Data models");
        ("backend/internal/database/cassandra.go", "Cassandra client");
        ("backend/internal/services/nats_services.go", "NATS services");
        ("backend/internal/handlers/auth.go", "Auth handler");
        ("backend/internal/cache/memory.go", "Memory cache") ]);
    ("Frontend",
      [ ("frontend/app.json", "Expo config");
        ("frontend/package.json", "Package config");
        ("frontend/tsconfig.json", "TypeScript config");
        ("frontend/app/store/appState.ts", "State management");
        ("frontend/app/services/api.ts", "API client");
        ("frontend/app/hooks/useAppState.ts", "Custom hooks");
        ("frontend/app/screens/LoginScreen.tsx", "Login screen");
        ("frontend/app/screens/ChatScreen.tsx", "Chat screen");
        ("frontend/app/screens/TasksScreen.tsx", "Tasks screen");
        ("frontend/app/components/MessageList.tsx", "Message list");
        ("frontend/app/components/MessageInput.tsx", "Message input") ]);
    ("Infrastructure",
      [ ("docker-compose.yml", "Docker Compose");
        ("infrastructure/cassandra/init.cql", "Cassandra schema");
        ("infrastructure/turn/turnserver.conf", "TURN config") ]);
    ("Automation",
      [ ("Makefile", "Makefile");
        ("setup.sh", "Setup script") ]) ].

(** The list [dirs] (lines 101-107). *)
Definition dirs : list (string * string) :=
  [ ("backend/cmd", "Backend commands");
    ("backend/internal", "Backend internal");
    ("frontend/app/screens", "Frontend screens");
    ("frontend/app/components", "Frontend components");
    ("infrastructure", "Infrastructure") ].

(** The locals of [main] that the loops assign (lines 82-84). *)
Record locals := mkLocals {
  all_passed : bool;
  total_files : Z;
  checked_files : Z
}.

(** The body of the inner loop (lines 91-95). *)
Definition file_body (entry : string * string) (l : locals) : Py locals :=
  let '(file_path, display_name) := entry in
  let l := mkLocals (all_passed l) (total_files l + 1) (checked_files l) in
  found <- check_file file_path display_name ;;
  if found then ret (mkLocals (all_passed l) (total_files l) (checked_files l + 1))
  else ret (mkLocals false (total_files l) (checked_files l)).

(** The body of the outer loop (lines 87-95). *)
Definition category_body (item : string * list (string * string)) (l : locals)
  : Py locals :=
  let '(category, files) := item in
  print (LF ++ "📂 " ++ category ++ ":") ;;
  print (str_mul "─" 50) ;;
  for_each files file_body l.

(** The body of the directory loop (lines 110-114). *)
Definition dir_body (entry : string * string) (l : locals) : Py locals :=
  let '(dir_path, display_name) := entry in
  let l := mkLocals (all_passed l) (total_files l + 1) (checked_files l) in
  found <- check_dir dir_path display_name ;;
  if found then ret (mkLocals (all_passed l) (total_files l) (checked_files l + 1))
  else ret (mkLocals false (total_files l) (checked_files l)).

(** Lines 82-114: the locals are initialised, then the two loops run. *)
Definition main_scan : Py locals :=
  let l := mkLocals true 0 0 in
  l <- for_each checks category_body l ;;
  print (LF ++ "📁 Directories:") ;;
  print (str_mul "─" 50) ;;
  for_each dirs dir_body l.

(** Lines 117-132: the summary, the banner and the returned code. *)
Definition main_report (l : locals) : Py Z :=
  print (LF ++ str_mul "=" 50) ;;
  print (LF ++ "📊 Summary: " ++ str_int (checked_files l) ++ "/"
            ++ str_int (total_files l) ++ " items verified" ++ LF) ;;
  if all_passed l then
    print (GREEN ++ "✓ All files and directories present!" ++ RESET ++ LF) ;;
    print "🚀 Next steps:" ;;
    print "   1. make setup     # Setup development environment" ;;
    print "   2. make build     # Build services" ;;
    print "   3. make run       # Run all services" ;;
    print "   4. make docker    # Start Docker containers" ;;
    print (LF ++ "✨ Or start coding directly!" ++ LF) ;;
    ret 0
  else
    print (RED ++ "✗ Some items are missing!" ++ RESET ++ LF) ;;
    print ("Please ensure all required files exist." ++ LF) ;;
    ret 1.

(** [main], where [file] is the module's [__file__]. *)
Definition main (file : string) : Py Z :=
  print (LF ++ "🔍 Nexus Project Structure Verification" ++ LF) ;;
  let root := parent (Path file) in
  os_chdir (fspath root) ;;
  l <- main_scan ;;
  main_report l.

(** ** The script as a process (lines 134-135) *)

(** The status the parent process sees for [sys.exit(code)]. *)
Definition sys_exit (code : Z) : Z := code mod 256.

(** [sys.exit(main())]; an exception nobody catches ends the interpreter
    with status 1. *)
Definition script (file : string) (w : world) : Z * world :=
  match main file w with
  | (Ok code, w') => (sys_exit code, w')
  | (Raise _, w') => (1, w')
  end.

(** The world a fresh process starts in. *)
Definition launch (cwd0 : string) (disk : string -> stat_result) : world :=
  mkWorld cwd0 disk [] [].

(** ** Vocabulary of the properties *)

(** [w] after more output and more system calls; nothing else differs. *)
Definition emit (w : world) (out : list string) (log : list syscall) : world :=
  mkWorld (cwd w) (fs w) (stdout w ++ out)%list (syslog w ++ log)%list.

(** A regular file, respectively a directory, exists at [path] for a process
    whose working directory is [base]. *)
Definition is_file (disk : string -> stat_result) (base path : string) : bool :=
  match disk (resolve base path) with
  | StOk n => S_ISREG n
  | StErr _ => false
  end.

Definition is_dir (disk : string -> stat_result) (base path : string) : bool :=
  match disk (resolve base path) with
  | StOk n => S_ISDIR n
  | StErr _ => false
  end.

Definition success_line (label : string) : string :=
  GREEN ++ "✓" ++ RESET ++ " " ++ label.

Definition failure_line (label : string) : string :=
  RED ++ "✗" ++ RESET ++ " " ++ label ++ " (NOT FOUND)".

Definition result_line (found : bool) (label : string) : string :=
  if found then success_line label else failure_line label.

(** What one entry does to the locals. *)
Definition tally (l : locals) (found : bool) : locals :=
  if found then mkLocals (all_passed l) (total_files l + 1) (checked_files l + 1)
  else mkLocals false (total_files l + 1) (checked_files l).

(** The file entries of the manifest, in declaration order. *)
Definition file_entries : list (string * string) := flat_map snd checks.

(** The existence predicate at every entry, in declaration order: files,
    then directories. *)
Definition file_results (disk : string -> stat_result) (base : string)
  (files : list (string * string)) : list bool :=
  map (fun e => is_file disk base (fst e)) files.

Definition dir_results (disk : string -> stat_result) (base : string)
  (ds : list (string * string)) : list bool :=
  map (fun e => is_dir disk base (fst e)) ds.

Definition manifest_results (disk : string -> stat_result) (base : string) : list bool :=
  (file_results disk base file_entries ++ dir_results disk base dirs)%list.

(** The paths handed to [stat], in declaration order. *)
Definition manifest_paths : list string :=
  (map fst file_entries ++ map fst dirs)%list.

Definition stat_calls (base : string) (paths : list string) : list syscall :=
  map (fun p => SysStat (resolve base p)) paths.

(** The lines of one category, of the directory section and of the scan. *)
Definition file_lines (disk : string -> stat_result) (base : string)
  (files : list (string * string)) : list string :=
  map (fun e => result_line (is_file disk base (fst e)) (snd e)) files.

Definition category_lines (disk : string -> stat_result) (base : string)
  (item : string * list (string * string)) : list string :=
  (LF ++ "📂 " ++ fst item ++ ":") :: str_mul "─" 50 :: file_lines disk base (snd item).

Definition dir_lines (disk : string -> stat_result) (base : string)
  (ds : list (string * string)) : list string :=
  map (fun e => result_line (is_dir disk base (fst e)) (snd e ++ "/")) ds.

Definition scan_lines (disk : string -> stat_result) (base : string) : list string :=
  (flat_map (category_lines disk base) checks
   ++ (LF ++ "📁 Directories:")%string :: str_mul "─" 50 :: dir_lines disk base dirs)%list.

Definition scan_locals (disk : string -> stat_result) (base : string) : locals :=
  fold_left tally (manifest_results disk base) (mkLocals true 0 0).

(** The summary line (line 118) and what it is built around. *)
Definition summary_counts (l : locals) : string :=
  str_int (checked_files l) ++ "/" ++ str_int (total_files l) ++ " items verified".

Definition summary_line (l : locals) : string :=
  LF ++ "📊 Summary: " ++ summary_counts l ++ LF.

Definition banner_lines (ok : bool) : list string :=
  if ok then
    [ GREEN ++ "✓ All files and directories present!" ++ RESET ++ LF;
      "🚀 Next steps:";
      "   1. make setup     # Setup development environment";
      "   2. make build     # Build services";
      "   3. make run       # Run all services";
      "   4. make docker    # Start Docker containers";
      LF ++ "✨ Or start coding directly!" ++ LF ]
  else
    [ RED ++ "✗ Some items are missing!" ++ RESET ++ LF;
      "Please ensure all required files exist." ++ LF ].

Definition report_lines (l : locals) : list string :=
  (LF ++ str_mul "=" 50) :: summary_line l :: banner_lines (all_passed l).

Definition title_line : string :=
  LF ++ "🔍 Nexus Project Structure Verification" ++ LF.

(** The directory the script changes to: the parent of [file], read from the
    working directory the process was started in. *)
Definition script_dir (file start : string) : string :=
  resolve start (fspath (parent (Path file))).

(** The number of entries found among the results. *)
Definition count_found (results : list bool) : Z :=
  Z.of_nat (length (filter (fun b => b) results)).

(** The locals when line 116 is reached, if it is. *)
Definition locals_at_summary (file : string) (w : world) : option locals :=
  match (print title_line ;; os_chdir (fspath (parent (Path file))) ;; main_scan) w with
  | (Ok l, _) => Some l
  | (Raise _, _) => None
  end.

(** The invariant of the loops of [main]. *)
Definition loop_invariant (l : locals) : Prop :=
  0 <= checked_files l <= total_files l
  /\ (all_passed l = true <-> checked_files l = total_files l).

(** What a process started in [start] on [disk] prints, in closed form. *)
Definition script_output (file start : string) (disk : string -> stat_result)
  : list string :=
  let base := script_dir file start in
  match chdir_error (disk base) with
  | None => (title_line :: scan_lines disk base
             ++ report_lines (scan_locals disk base))%list
  | Some _ => [title_line]
  end.

(** A computation that leaves the file system as it is. *)
Definition keeps_disk {A} (m : Py A) : Prop := forall w, fs (snd (m w)) = fs w.

(** ** Sample file systems *)

Definition nexus_root : string := "/home/dev/nexus".

(** Every entry of the manifest is there. *)
Definition complete_disk (p : string) : stat_result :=
  if String.eqb p nexus_root then StOk (Directory true)
  else if existsb (String.eqb p) (map (fun e => resolve nexus_root (fst e)) file_entries)
  then StOk Regular
  else if existsb (String.eqb p) (map (fun e => resolve nexus_root (fst e)) dirs)
  then StOk (Directory true)
  else StErr ENOENT.

(** [infrastructure] is a regular file, so nothing can be below it, and
    [setup.sh] is a symbolic link to itself. *)
Definition damaged_disk (p : string) : stat_result :=
  if String.eqb p "/home/dev/nexus/infrastructure" then StOk Regular
  else if starts_with "/home/dev/nexus/infrastructure/" p then StErr ENOTDIR
  else if String.eqb p "/home/dev/nexus/setup.sh" then StErr ELOOP
  else complete_disk p.

(** The same answers as [damaged_disk], computed another way. *)
Definition remounted_disk (p : string) : stat_result :=
  if String.eqb p "/home/dev/nexus/setup.sh" then StErr ELOOP
  else damaged_disk p.

Definition in_nexus (disk : string -> stat_result) : world :=
  mkWorld nexus_root disk [] [].

(** A manifest of three files, for the scenarios of the specification, and
    the file loop followed by the report, run on a manifest. *)
Definition three_files : list (string * string) :=
  [ ("README.md", "README"); ("Makefile", "Makefile"); ("setup.sh", "Setup script") ].

Definition scan_and_report (files : list (string * string)) : Py (locals * Z) :=
  l <- for_each files file_body (mkLocals true 0 0) ;;
  code <- main_report l ;;
  ret (l, code).

(** ** Vocabulary of the further properties *)

(** How a success line and a failure line begin. *)
Definition success_mark : string := GREEN ++ "✓" ++ RESET ++ " ".

Definition failure_mark : string := RED ++ "✗" ++ RESET ++ " ".

(** The number of lines that begin with [mark]. *)
Definition count_lines (mark : string) (lines : list string) : Z :=
  Z.of_nat (length (filter (starts_with mark) lines)).

(** The first line of the success banner (line 121). *)
Definition success_banner : string :=
  GREEN ++ "✓ All files and directories present!" ++ RESET ++ LF.

(** [complete_disk] with files the manifest does not name, one of them where
    the manifest has nothing to say about [backend/cmd]. *)
Definition crowded_disk (p : string) : stat_result :=
  if String.eqb p "/home/dev/nexus/notes.txt" then StOk Regular
  else if String.eqb p "/home/dev/nexus/backend/cmd/extra/main.go" then StOk Regular
  else if String.eqb p "/etc/passwd" then StOk Regular
  else complete_disk p.

(** The labels, as printed, of the entries that are not found: files, then
    directories, in declaration order. *)
Definition missing_labels (disk : string -> stat_result) (base : string) : list string :=
  (map snd (filter (fun e => negb (is_file disk base (fst e))) file_entries)
   ++ map (fun e => (snd e ++ "/")%string)
          (filter (fun e => negb (is_dir disk base (fst e))) dirs))%list.

(** ** Facts about the monad and the primitives *)

Lemma str_append_assoc (a b c : string) : (a ++ b) ++ c = a ++ (b ++ c).
Proof. induction a as [|x a IH]; simpl; [reflexivity | now rewrite IH]. Qed.

Lemma emit_emit w out1 log1 out2 log2 :
  emit (emit w out1 log1) out2 log2 = emit w (out1 ++ out2)%list (log1 ++ log2)%list.
Proof. unfold emit; simpl. now rewrite <- !app_assoc. Qed.

Lemma bind_ok {A B} (m : Py A) (k : A -> Py B) w a w' :
  m w = (Ok a, w') -> bind m k w = k a w'.
Proof. unfold bind; intros ->; reflexivity. Qed.

Lemma print_run s w : print s w = (Ok tt, emit w [s] []).
Proof. unfold print, emit. now rewrite app_nil_r. Qed.

Lemma check_file_run path name w :
  check_file path name w =
  (Ok (is_file (fs w) (cwd w) path),
   emit w [result_line (is_file (fs w) (cwd w) path) name]
          [SysStat (resolve (cwd w) path)]).
Proof.
  unfold check_file, os_path_isfile, try_except, os_stat, bind, ret, is_file; simpl.
  destruct (fs w _) as [n|e]; [destruct (S_ISREG n)|]; reflexivity.
Qed.

Lemma check_dir_run path name w :
  check_dir path name w =
  (Ok (is_dir (fs w) (cwd w) path),
   emit w [result_line (is_dir (fs w) (cwd w) path) (name ++ "/")]
          [SysStat (resolve (cwd w) path)]).
Proof.
  unfold check_dir, os_path_isdir, try_except, os_stat, bind, ret, is_dir; simpl.
  destruct (fs w _) as [n|e]; [destruct (S_ISDIR n)|];
    unfold result_line, success_line, failure_line;
    try reflexivity; now rewrite (str_append_assoc name "/").
Qed.

Lemma emit_nil w : emit w [] [] = w.
Proof. destruct w; unfold emit; simpl. now rewrite !app_nil_r. Qed.

Lemma cwd_emit w out log : cwd (emit w out log) = cwd w.
Proof. reflexivity. Qed.

Lemma fs_emit w out log : fs (emit w out log) = fs w.
Proof. reflexivity. Qed.

(** ** The loops in closed form *)

Lemma file_body_run e l w :
  file_body e l w =
  (Ok (tally l (is_file (fs w) (cwd w) (fst e))),
   emit w [result_line (is_file (fs w) (cwd w) (fst e)) (snd e)]
          [SysStat (resolve (cwd w) (fst e))]).
Proof.
  destruct e as [file_path display_name]; unfold file_body; simpl.
  rewrite (bind_ok _ _ _ _ _ (check_file_run file_path display_name w)).
  unfold tally, ret. destruct (is_file _ _ _); reflexivity.
Qed.

Lemma dir_body_run e l w :
  dir_body e l w =
  (Ok (tally l (is_dir (fs w) (cwd w) (fst e))),
   emit w [result_line (is_dir (fs w) (cwd w) (fst e)) (snd e ++ "/")]
          [SysStat (resolve (cwd w) (fst e))]).
Proof.
  destruct e as [dir_path display_name]; unfold dir_body; simpl.
  rewrite (bind_ok _ _ _ _ _ (check_dir_run dir_path display_name w)).
  unfold tally, ret. destruct (is_dir _ _ _); reflexivity.
Qed.

Lemma for_each_file_body files : forall l w,
  for_each files file_body l w =
  (Ok (fold_left tally (file_results (fs w) (cwd w) files) l),
   emit w (file_lines (fs w) (cwd w) files) (stat_calls (cwd w) (map fst files))).
Proof.
  induction files as [|e files IH]; intros l w; simpl.
  - unfold ret. now rewrite emit_nil.
  - rewrite (bind_ok _ _ _ _ _ (file_body_run e l w)), IH, emit_emit.
    reflexivity.
Qed.

Lemma for_each_dir_body ds : forall l w,
  for_each ds dir_body l w =
  (Ok (fold_left tally (dir_results (fs w) (cwd w) ds) l),
   emit w (dir_lines (fs w) (cwd w) ds) (stat_calls (cwd w) (map fst ds))).
Proof.
  induction ds as [|e ds IH]; intros l w; simpl.
  - unfold ret. now rewrite emit_nil.
  - rewrite (bind_ok _ _ _ _ _ (dir_body_run e l w)), IH, emit_emit.
    reflexivity.
Qed.

Lemma category_body_run item l w :
  category_body item l w =
  (Ok (fold_left tally (file_results (fs w) (cwd w) (snd item)) l),
   emit w (category_lines (fs w) (cwd w) item) (stat_calls (cwd w) (map fst (snd item)))).
Proof.
  destruct item as [category files]; unfold category_body, category_lines; simpl.
  rewrite (bind_ok _ _ _ _ _ (print_run _ w)).
  rewrite (bind_ok _ _ _ _ _ (print_run _ _)).
  rewrite for_each_file_body, !emit_emit. reflexivity.
Qed.

Lemma for_each_category_body cats : forall l w,
  for_each cats category_body l w =
  (Ok (fold_left tally (file_results (fs w) (cwd w) (flat_map snd cats)) l),
   emit w (flat_map (category_lines (fs w) (cwd w)) cats)
          (stat_calls (cwd w) (map fst (flat_map snd cats)))).
Proof.
  induction cats as [|item cats IH]; intros l w; simpl.
  - unfold ret. now rewrite emit_nil.
  - rewrite (bind_ok _ _ _ _ _ (category_body_run item l w)), IH, emit_emit.
    unfold file_results, stat_calls.
    rewrite !map_app, fold_left_app. reflexivity.
Qed.

Lemma main_scan_run w :
  main_scan w =
  (Ok (scan_locals (fs w) (cwd w)),
   emit w (scan_lines (fs w) (cwd w)) (stat_calls (cwd w) manifest_paths)).
Proof.
  unfold main_scan.
  rewrite (bind_ok _ _ _ _ _ (for_each_category_body checks _ w)).
  rewrite (bind_ok _ _ _ _ _ (print_run _ _)).
  rewrite (bind_ok _ _ _ _ _ (print_run _ _)).
  rewrite for_each_dir_body, !emit_emit.
  unfold scan_locals, manifest_results, scan_lines, manifest_paths, stat_calls, file_entries.
  rewrite fold_left_app, !map_app, !cwd_emit, !fs_emit, !app_nil_r.
  reflexivity.
Qed.

Lemma main_report_run l w :
  main_report l w = (Ok (if all_passed l then 0 else 1), emit w (report_lines l) []).
Proof.
  unfold main_report, report_lines, summary_line, summary_counts.
  rewrite !str_append_assoc.
  rewrite (bind_ok _ _ _ _ _ (print_run _ w)).
  rewrite (bind_ok _ _ _ _ _ (print_run _ _)).
  destruct (all_passed l); unfold banner_lines;
    repeat rewrite (bind_ok _ _ _ _ _ (print_run _ _));
    unfold ret; rewrite !emit_emit; reflexivity.
Qed.

(** ** main in closed form *)

Lemma main_run file w :
  main file w =
  let base := script_dir file (cwd w) in
  match chdir_error (fs w base) with
  | None =>
      let l := scan_locals (fs w) base in
      (Ok (if all_passed l then 0 else 1),
       mkWorld base (fs w)
         (stdout w ++ title_line :: scan_lines (fs w) base ++ report_lines l)%list
         (syslog w ++ SysChdir base :: stat_calls base manifest_paths)%list)
  | Some e => (Raise (OSError e), emit w [title_line] [SysChdir base])
  end.
Proof.
  unfold main. fold title_line.
  rewrite (bind_ok _ _ _ _ _ (print_run _ w)).
  unfold bind at 1. unfold os_chdir, script_dir. rewrite cwd_emit, fs_emit.
  cbv zeta.
  destruct (chdir_error _) as [e|].
  - unfold emit; simpl. now rewrite app_nil_r.
  - rewrite (bind_ok _ _ _ _ _ (main_scan_run _)), main_report_run.
    unfold emit; simpl. rewrite !app_nil_r, <- !app_assoc. reflexivity.
Qed.

Lemma locals_at_summary_run file w :
  locals_at_summary file w =
  let base := script_dir file (cwd w) in
  match chdir_error (fs w base) with
  | None => Some (scan_locals (fs w) base)
  | Some _ => None
  end.
Proof.
  unfold locals_at_summary.
  rewrite (bind_ok _ _ _ _ _ (print_run _ w)).
  unfold bind at 1. unfold os_chdir, script_dir. rewrite cwd_emit, fs_emit.
  cbv zeta.
  destruct (chdir_error _) as [e|]; [reflexivity|].
  now rewrite main_scan_run.
Qed.

(** [locals_at_summary] is what the code before line 116 computes: [main] is
    that code followed by [main_report]. *)
Lemma main_reaches_summary file w :
  main file w =
  bind (print title_line ;; os_chdir (fspath (parent (Path file))) ;; main_scan)
       main_report w.
Proof.
  unfold main. fold title_line. unfold bind.
  destruct (print title_line w) as [[[]|x] w1]; [|reflexivity].
  destruct (os_chdir _ w1) as [[[]|x] w2]; [|reflexivity].
  destruct (main_scan w2) as [[l|x] w3]; reflexivity.
Qed.

(** ** Concrete runs *)

Example parent_of_script_paths :
  map (fun file => fspath (parent (Path file)))
      [ "/home/dev/nexus/verify.py"; "verify.py"; "./verify.py";
        "tools//nexus/./verify.py"; "/verify.py"; "//verify.py" ]
  = [ "/home/dev/nexus"; "."; "."; "tools/nexus"; "/"; "//" ].
Proof. reflexivity. Qed.

Example scenario_A :
  fst (scan_and_report three_files (in_nexus complete_disk))
  = Ok (mkLocals true 3 3, 0).
Proof. vm_compute. reflexivity. Qed.

Example scenario_B :
  fst (scan_and_report three_files (in_nexus damaged_disk))
  = Ok (mkLocals false 3 2, 1).
Proof. vm_compute. reflexivity. Qed.

Example scenario_B_lines :
  firstn 3 (stdout (snd (scan_and_report three_files (in_nexus damaged_disk))))
  = [ success_line "README"; success_line "Makefile"; failure_line "Setup script" ].
Proof. vm_compute. reflexivity. Qed.

Example scenario_D :
  fst (scan_and_report [] (in_nexus damaged_disk)) = Ok (mkLocals true 0 0, 0).
Proof. vm_compute. reflexivity. Qed.

Example complete_run_summary :
  nth_error (stdout (snd (main "/home/dev/nexus/verify.py" (launch "/" complete_disk)))) 50
  = Some (LF ++ "📊 Summary: 36/36 items verified" ++ LF).
Proof. vm_compute. reflexivity. Qed.

(** ** The tally *)

Lemma fold_tally results : forall l,
  fold_left tally results l =
  mkLocals (all_passed l && forallb (fun b => b) results)
           (total_files l + Z.of_nat (length results))
           (checked_files l + count_found results).
Proof.
  unfold count_found.
  induction results as [|b results IH]; intros l.
  - simpl. rewrite andb_true_r, !Z.add_0_r. now destruct l.
  - cbn [fold_left]. rewrite IH. destruct b; cbn [tally filter forallb length
      all_passed total_files checked_files andb]; f_equal;
      lia || now rewrite andb_false_r.
Qed.

Lemma count_found_le results : 0 <= count_found results <= Z.of_nat (length results).
Proof.
  unfold count_found. pose proof (filter_length_le (fun b : bool => b) results). lia.
Qed.

Lemma count_found_all results :
  forallb (fun b => b) results = true <->
  count_found results = Z.of_nat (length results).
Proof.
  unfold count_found.
  induction results as [|b results IH]; simpl; [tauto|].
  pose proof (filter_length_le (fun b : bool => b) results).
  destruct b; simpl.
  - rewrite IH. lia.
  - split; [discriminate | lia].
Qed.

Lemma manifest_results_length disk base : length (manifest_results disk base) = 36%nat.
Proof.
  unfold manifest_results, file_results, dir_results.
  now rewrite length_app, !length_map.
Qed.

(** ** Properties of the check functions *)

Lemma is_file_iff disk base path :
  is_file disk base path = true <-> disk (resolve base path) = StOk Regular.
Proof.
  unfold is_file. destruct (disk _) as [[| |]|]; simpl; split; congruence.
Qed.

Lemma is_dir_iff disk base path :
  is_dir disk base path = true <->
  exists searchable, disk (resolve base path) = StOk (Directory searchable).
Proof.
  unfold is_dir. destruct (disk _) as [[| |]|]; simpl; split;
    try congruence; eauto; intros [x Hx]; discriminate.
Qed.

(** C3. [check_file path name] never raises.  It returns [True] and prints
    the success line exactly when [stat] answers that [path], read from the
    working directory, is a regular file; in every other case it prints the
    failure line and returns [False]. *)
Theorem check_file_correct (path name : string) (w : world) :
  let target := resolve (cwd w) path in
  exists found : bool,
    check_file path name w =
      (Ok found,
       emit w [if found then GREEN ++ "✓" ++ RESET ++ " " ++ name
               else RED ++ "✗" ++ RESET ++ " " ++ name ++ " (NOT FOUND)"]
              [SysStat target])
    /\ (found = true <-> fs w target = StOk Regular).
Proof.
  intros target. exists (is_file (fs w) (cwd w) path). split.
  - rewrite check_file_run. unfold result_line, success_line, failure_line.
    reflexivity.
  - apply is_file_iff.
Qed.

(** C4. [check_dir path name] never raises and returns [True], with the
    success line, exactly when [stat] answers that [path] is a directory.
    When a regular file sits at [path], it prints the failure line and
    returns [False].  The empty path is handed to [stat] as it is, not as the
    working directory: where [stat] refuses it, as every file system does,
    [check_dir] returns [False] whatever the working directory is. *)
Theorem check_dir_correct (path name : string) (w : world) :
  let target := resolve (cwd w) path in
  (exists found : bool,
     check_dir path name w =
       (Ok found,
        emit w [if found then GREEN ++ "✓" ++ RESET ++ " " ++ name ++ "/"
                else RED ++ "✗" ++ RESET ++ " " ++ name ++ "/ (NOT FOUND)"]
               [SysStat target])
     /\ (found = true <->
         exists searchable, fs w target = StOk (Directory searchable)))
  /\ (fs w target = StOk Regular ->
      check_dir path name w =
        (Ok false,
         emit w [RED ++ "✗" ++ RESET ++ " " ++ name ++ "/ (NOT FOUND)"]
                [SysStat target]))
  /\ (fs w "" = StErr ENOENT ->
      check_dir "" name w =
        (Ok false,
         emit w [RED ++ "✗" ++ RESET ++ " " ++ name ++ "/ (NOT FOUND)"]
                [SysStat ""])).
Proof.
  intros target.
  assert (Hrun : forall q, check_dir q name w =
      (Ok (is_dir (fs w) (cwd w) q),
       emit w [if is_dir (fs w) (cwd w) q
               then GREEN ++ "✓" ++ RESET ++ " " ++ name ++ "/"
               else RED ++ "✗" ++ RESET ++ " " ++ name ++ "/ (NOT FOUND)"]
              [SysStat (resolve (cwd w) q)])).
  { intros q. rewrite check_dir_run. unfold result_line, success_line, failure_line.
    destruct (is_dir _ _ _); [reflexivity|].
    now rewrite (str_append_assoc name "/"). }
  split; [|split].
  - exists (is_dir (fs w) (cwd w) path). split; [apply Hrun | apply is_dir_iff].
  - intros Hreg. rewrite Hrun. unfold is_dir. fold target. now rewrite Hreg.
  - intros Hempty. rewrite Hrun. unfold is_dir.
    change (resolve (cwd w) "") with "". now rewrite Hempty.
Qed.

Example empty_path_is_no_directory :
  fst (check_dir "" "here" (in_nexus complete_disk)) = Ok false
  /\ fst (check_dir "/home/dev/nexus" "here" (in_nexus complete_disk)) = Ok true
  /\ fst (check_dir "nexus" "here" (mkWorld "/home/dev" complete_disk [] []))
     = Ok true.
Proof. repeat split. Qed.

Example scenario_C :
  fst (check_dir "infrastructure" "Infrastructure" (in_nexus damaged_disk)) = Ok false.
Proof. reflexivity. Qed.

(** ** The loop invariant *)

Lemma tally_invariant l found :
  loop_invariant l ->
  loop_invariant (tally l found)
  /\ total_files (tally l found) = total_files l + 1
  /\ checked_files (tally l found) = checked_files l + (if found then 1 else 0).
Proof.
  unfold loop_invariant. intros [Hle Hiff].
  destruct found; simpl; repeat split; try lia; intros H;
    try discriminate; try (apply Hiff in H; lia); try (apply Hiff; lia).
Qed.

(** C10. The invariant of the two loops of [main]: it holds of the initial
    locals, and one iteration of either loop, whatever the check answers,
    keeps [0 <= checked_files <= total_files], adds exactly one to
    [total_files] and nothing or one to [checked_files], and keeps
    [all_passed] true exactly when [checked_files = total_files].  After any
    file entries and any directory entries have been processed from the
    initial locals, [total_files] is their number and [all_passed] is true
    exactly when each of them was found. *)
Theorem loop_invariant_kept (l : locals) (entry : string * string) (w : world) :
  loop_invariant l ->
  loop_invariant (mkLocals true 0 0)
  /\ (forall body, body = file_body \/ body = dir_body ->
      exists l' w',
        body entry l w = (Ok l', w')
        /\ loop_invariant l'
        /\ total_files l' = total_files l + 1
        /\ checked_files l <= checked_files l' <= checked_files l + 1)
  /\ (forall files ds,
      exists l1 w1 l2 w2,
        for_each files file_body (mkLocals true 0 0) w = (Ok l1, w1)
        /\ for_each ds dir_body l1 w1 = (Ok l2, w2)
        /\ loop_invariant l2
        /\ total_files l2 = Z.of_nat (length files + length ds)
        /\ (all_passed l2 = true <->
            forallb (fun b => b)
              (file_results (fs w) (cwd w) files ++ dir_results (fs w) (cwd w) ds)
            = true)).
Proof.
  intros Hinv. split; [|split].
  - unfold loop_invariant; simpl. split; [lia | tauto].
  - intros body [-> | ->].
    + rewrite file_body_run. do 2 eexists. split; [reflexivity|].
      destruct (tally_invariant l (is_file (fs w) (cwd w) (fst entry)) Hinv)
        as (H1 & H2 & H3).
      repeat split; try assumption; try apply H1;
        destruct (is_file _ _ _); lia.
    + rewrite dir_body_run. do 2 eexists. split; [reflexivity|].
      destruct (tally_invariant l (is_dir (fs w) (cwd w) (fst entry)) Hinv)
        as (H1 & H2 & H3).
      repeat split; try assumption; try apply H1;
        destruct (is_dir _ _ _); lia.
  - intros files ds. do 4 eexists.
    split; [apply for_each_file_body|].
    split; [apply for_each_dir_body|].
    rewrite cwd_emit, fs_emit, <- fold_left_app, fold_tally.
    set (results := (file_results (fs w) (cwd w) files
                     ++ dir_results (fs w) (cwd w) ds)%list).
    assert (Hlen : length results = (length files + length ds)%nat).
    { unfold results, file_results, dir_results.
      now rewrite length_app, !length_map. }
    pose proof (count_found_le results) as Hle.
    pose proof (count_found_all results) as Hall.
    unfold loop_invariant; cbn [all_passed total_files checked_files andb].
    rewrite <- Hlen. repeat split; try lia.
    + intros H. apply Hall in H. lia.
    + intros H. apply Hall. lia.
    + tauto.
    + tauto.
Qed.

Lemma loop_invariant_kept_witness :
  loop_invariant (mkLocals true 3 3)
  /\ exists l' w',
       file_body ("STATUS.md", "Implementation Status") (mkLocals true 3 3)
                 (in_nexus damaged_disk) = (Ok l', w')
       /\ loop_invariant l'.
Proof.
  assert (H : loop_invariant (mkLocals true 3 3)).
  { unfold loop_invariant; simpl. split; [lia | tauto]. }
  split; [exact H|].
  destruct (loop_invariant_kept (mkLocals true 3 3)
              ("STATUS.md", "Implementation Status") (in_nexus damaged_disk) H)
    as (_ & Hstep & _).
  destruct (Hstep file_body (or_introl eq_refl)) as (l' & w' & Hrun & Hinv & _).
  exists l', w'. split; assumption.
Defined.

(** ** Counters and exit code *)

Lemma scan_locals_fields disk base :
  scan_locals disk base =
  mkLocals (forallb (fun b => b) (manifest_results disk base)) 36
           (count_found (manifest_results disk base)).
Proof.
  unfold scan_locals. rewrite fold_tally, manifest_results_length. reflexivity.
Qed.

(** C2. The scan (lines 82-114) always completes.  The manifest holds
    5, 10, 11, 3 and 2 file entries and 5 directory entries; whatever the file
    system holds, [total_files] ends at 36 and [checked_files] at the number
    of entries whose existence predicate answered true, and [all_passed] is
    true exactly when [checked_files = total_files]. *)
Theorem scan_counters (w : world) :
  exists l w',
    main_scan w = (Ok l, w')
    /\ map (fun item => length (snd item)) checks = [5; 10; 11; 3; 2]%nat
    /\ length dirs = 5%nat
    /\ total_files l = 36
    /\ checked_files l = count_found (manifest_results (fs w) (cwd w))
    /\ (all_passed l = true <-> checked_files l = total_files l).
Proof.
  do 2 eexists. split; [apply main_scan_run|].
  rewrite scan_locals_fields. cbn [all_passed total_files checked_files].
  repeat split.
  - intros H. apply count_found_all in H.
    now rewrite H, manifest_results_length.
  - intros H. apply count_found_all.
    now rewrite H, manifest_results_length.
Qed.

Lemma sys_exit_bit (b : bool) : sys_exit (if b then 0 else 1) = if b then 0 else 1.
Proof. now destruct b. Qed.

Lemma all_found_iff disk base :
  forallb (fun b => b) (manifest_results disk base) = true
  <-> (forall e, In e file_entries -> disk (resolve base (fst e)) = StOk Regular)
      /\ (forall e, In e dirs ->
           exists searchable, disk (resolve base (fst e)) = StOk (Directory searchable)).
Proof.
  unfold manifest_results, file_results, dir_results.
  rewrite forallb_app, andb_true_iff, !forallb_forall.
  split; intros [Hf Hd]; split.
  - intros e He. apply is_file_iff, Hf, in_map_iff. now exists e.
  - intros e He. apply is_dir_iff, Hd, in_map_iff. now exists e.
  - intros b Hb. apply in_map_iff in Hb as (e & <- & He).
    now apply is_file_iff, Hf.
  - intros b Hb. apply in_map_iff in Hb as (e & <- & He).
    now apply is_dir_iff, Hd.
Qed.

(** C1. The status of the process is 0 or 1 and nothing else.  Line 120 is
    reached unless [os.chdir] was refused, and the status is then 0 if
    [all_passed] is true and 1 if not.  So the status is 0 exactly when the
    script's directory was entered and [stat] answers a regular file at every
    file entry of the manifest and a directory at every directory entry; it
    is 1 as soon as one of them is missing. *)
Theorem exit_code_zero_or_one (file : string) (w : world) :
  let base := script_dir file (cwd w) in
  fst (script file w)
  = match locals_at_summary file w with
    | Some l => if all_passed l then 0 else 1
    | None => 1
    end
  /\ (forall l, locals_at_summary file w = Some l ->
      (all_passed l = true <->
       forallb (fun b => b) (manifest_results (fs w) base) = true))
  /\ (fst (script file w) = 0 \/ fst (script file w) = 1)
  /\ (locals_at_summary file w = None <-> exists e, chdir_error (fs w base) = Some e)
  /\ (fst (script file w) = 0 <->
      chdir_error (fs w base) = None
      /\ (forall e, In e file_entries -> fs w (resolve base (fst e)) = StOk Regular)
      /\ (forall e, In e dirs ->
          exists searchable, fs w (resolve base (fst e)) = StOk (Directory searchable))).
Proof.
  intros base. unfold script. rewrite main_run, locals_at_summary_run. cbv zeta.
  fold base. rewrite <- all_found_iff.
  destruct (chdir_error (fs w base)) as [e|]; cbn [fst].
  - split; [reflexivity|]. split; [discriminate|]. split; [now right|].
    split; split.
    + intros _. now exists e.
    + reflexivity.
    + discriminate.
    + intros [H _]. discriminate H.
  - rewrite sys_exit_bit, scan_locals_fields. cbn [all_passed].
    split; [reflexivity|]. split; [intros l [= <-]; reflexivity|].
    split; [destruct (forallb _ _); [now left | now right]|].
    split; split.
    + discriminate.
    + intros [e H]. discriminate H.
    + destruct (forallb _ _); [now split | discriminate].
    + intros [_ ->]. reflexivity.
Qed.

Lemma exit_code_zero_or_one_witness :
  fst (script "/home/dev/nexus/verify.py" (launch "/tmp" complete_disk)) = 0
  /\ fst (script "/home/dev/nexus/verify.py" (launch "/tmp" damaged_disk)) = 1.
Proof.
  split.
  - destruct (exit_code_zero_or_one "/home/dev/nexus/verify.py"
                (launch "/tmp" complete_disk)) as (_ & _ & _ & _ & [_ Hzero]).
    apply Hzero. split; [reflexivity|]. split.
    + intros e He. cbn in He.
      repeat (destruct He as [<- | He]; [reflexivity|]). destruct He.
    + intros e He. exists true. cbn in He.
      repeat (destruct He as [<- | He]; [reflexivity|]). destruct He.
  - destruct (exit_code_zero_or_one "/home/dev/nexus/verify.py"
                (launch "/tmp" damaged_disk)) as (_ & _ & [H | H] & _ & [Hzero _]);
      [|exact H].
    destruct (Hzero H) as (_ & _ & Hdirs).
    destruct (Hdirs ("infrastructure", "Infrastructure")) as [searchable Hdir].
    + cbn. tauto.
    + discriminate Hdir.
Defined.

Example all_present_exits_0 :
  fst (script "/home/dev/nexus/verify.py" (launch "/tmp" complete_disk)) = 0.
Proof. vm_compute. reflexivity. Qed.

Example damaged_exits_1 :
  fst (script "/home/dev/nexus/verify.py" (launch "/tmp" damaged_disk)) = 1.
Proof. vm_compute. reflexivity. Qed.

Example no_script_dir_exits_1 :
  fst (script "/srv/verify.py" (launch "/tmp" complete_disk)) = 1.
Proof. vm_compute. reflexivity. Qed.

(** ** The summary line *)

(** C5. When the run gets past its checks, the lines it prints after the
    last result line are the separator, the summary line
    [<checked_files>/<total_files> items verified] with the counters the
    loops accumulated, and the banner. *)
Theorem summary_line_printed (file : string) (w : world) (l : locals) :
  locals_at_summary file w = Some l ->
  stdout (snd (main file w))
  = (stdout w
     ++ title_line :: scan_lines (fs w) (script_dir file (cwd w))
     ++ [ (LF ++ str_mul "=" 50)%string;
          (LF ++ "📊 Summary: "
              ++ (str_int (checked_files l) ++ "/" ++ str_int (total_files l)
                  ++ " items verified")
              ++ LF)%string ]
     ++ banner_lines (all_passed l))%list.
Proof.
  rewrite main_run, locals_at_summary_run. cbv zeta.
  destruct (chdir_error _) as [e|]; [discriminate|].
  intros [= <-]. reflexivity.
Qed.

Lemma summary_line_printed_witness :
  exists before after,
    stdout (snd (main "/home/dev/nexus/verify.py" (launch "/tmp" damaged_disk)))
    = (before ++ (LF ++ "📊 Summary: 32/36 items verified" ++ LF)%string :: after)%list.
Proof.
  assert (H : locals_at_summary "/home/dev/nexus/verify.py" (launch "/tmp" damaged_disk)
              = Some (mkLocals false 36 32)) by (vm_compute; reflexivity).
  pose proof (summary_line_printed _ _ _ H) as Hout.
  exists (title_line :: scan_lines damaged_disk nexus_root
          ++ [(LF ++ str_mul "=" 50)%string])%list,
         (banner_lines false).
  rewrite Hout. vm_compute. reflexivity.
Defined.

(** ** Determinism *)

Section SameSnapshot.
Variables disk1 disk2 : string -> stat_result.
Hypothesis same : forall p, disk1 p = disk2 p.
Variable base : string.

Lemma is_file_same path : is_file disk1 base path = is_file disk2 base path.
Proof. unfold is_file. now rewrite same. Qed.

Lemma is_dir_same path : is_dir disk1 base path = is_dir disk2 base path.
Proof. unfold is_dir. now rewrite same. Qed.

Lemma manifest_results_same : manifest_results disk1 base = manifest_results disk2 base.
Proof.
  unfold manifest_results, file_results, dir_results. f_equal;
    apply map_ext; intros e; [apply is_file_same | apply is_dir_same].
Qed.

Lemma scan_locals_same : scan_locals disk1 base = scan_locals disk2 base.
Proof. unfold scan_locals. now rewrite manifest_results_same. Qed.

Lemma category_lines_same item :
  category_lines disk1 base item = category_lines disk2 base item.
Proof.
  unfold category_lines, file_lines. do 2 f_equal.
  apply map_ext; intros e. now rewrite is_file_same.
Qed.

Lemma scan_lines_same : scan_lines disk1 base = scan_lines disk2 base.
Proof.
  unfold scan_lines, dir_lines. f_equal.
  - apply flat_map_ext. exact category_lines_same.
  - do 2 f_equal. apply map_ext; intros e. now rewrite is_dir_same.
Qed.
End SameSnapshot.

Lemma script_run file w :
  script file w =
  let base := script_dir file (cwd w) in
  match chdir_error (fs w base) with
  | None =>
      (if all_passed (scan_locals (fs w) base) then 0 else 1,
       mkWorld base (fs w)
         (stdout w ++ script_output file (cwd w) (fs w))%list
         (syslog w ++ SysChdir base :: stat_calls base manifest_paths)%list)
  | Some e => (1, emit w (script_output file (cwd w) (fs w)) [SysChdir base])
  end.
Proof.
  unfold script, script_output. rewrite main_run. cbv zeta.
  destruct (chdir_error _) as [e|]; [reflexivity|].
  now rewrite sys_exit_bit.
Qed.

(** C6. A run is a function of the file system it finds.  Two processes
    started in the same directory on file systems that answer alike
    everywhere print the same text and end with the same status; the file
    system a run leaves is the one it found, so that the next run repeats it.
    The text is the title, then category by category and entry by entry in
    the order of the manifest one line per check, then the directories in
    their order, then the summary and the banner; the system calls are the
    [chdir] and then one [stat] per entry in that same order; and the status
    is 0 if the directory was entered and every entry found, 1 if not. *)
Theorem run_deterministic (file start : string) (disk1 disk2 : string -> stat_result) :
  (forall p, disk1 p = disk2 p) ->
  let run1 := script file (launch start disk1) in
  let run2 := script file (launch start disk2) in
  let base := script_dir file start in
  stdout (snd run1) = stdout (snd run2)
  /\ fst run1 = fst run2
  /\ script file (launch start (fs (snd run1))) = run1
  /\ stdout (snd run1) = script_output file start disk1
  /\ syslog (snd run1)
     = SysChdir base
       :: match chdir_error (disk1 base) with
          | None => stat_calls base manifest_paths
          | Some _ => []
          end
  /\ fst run1
     = match chdir_error (disk1 base) with
       | None => if forallb (fun b => b) (manifest_results disk1 base) then 0 else 1
       | Some _ => 1
       end.
Proof.
  intros same run1 run2 base.
  assert (H1 : run1 =
    match chdir_error (disk1 (script_dir file start)) with
    | None =>
        (if all_passed (scan_locals disk1 (script_dir file start)) then 0 else 1,
         mkWorld (script_dir file start) disk1 (script_output file start disk1)
           (SysChdir (script_dir file start)
            :: stat_calls (script_dir file start) manifest_paths))
    | Some e =>
        (1, mkWorld start disk1 (script_output file start disk1)
              [SysChdir (script_dir file start)])
    end).
  { unfold run1. rewrite script_run. reflexivity. }
  assert (H2 : stdout (snd run2) = script_output file start disk2
               /\ fst run2 = match chdir_error (disk2 (script_dir file start)) with
                             | None => if all_passed (scan_locals disk2 (script_dir file start))
                                       then 0 else 1
                             | Some _ => 1
                             end).
  { unfold run2. rewrite script_run. cbv zeta. unfold launch; cbn [cwd fs stdout].
    destruct (chdir_error (disk2 _)); split; reflexivity. }
  destruct H2 as [Hout2 Hexit2].
  assert (Hsame : script_output file start disk1 = script_output file start disk2).
  { unfold script_output. cbv zeta. rewrite <- same.
    destruct (chdir_error _); [reflexivity|].
    now rewrite (scan_lines_same disk1 disk2 same),
                (scan_locals_same disk1 disk2 same). }
  assert (Hfs : fs (snd run1) = disk1).
  { rewrite H1. destruct (chdir_error _); reflexivity. }
  rewrite Hfs. fold run1. rewrite Hout2, Hexit2, <- Hsame, <- same.
  rewrite <- (scan_locals_same disk1 disk2 same).
  rewrite H1. unfold base.
  destruct (chdir_error _); cbn [fst snd stdout syslog];
    rewrite ?scan_locals_fields; cbn [all_passed]; repeat split.
Qed.

Lemma run_deterministic_witness :
  let run1 := script "/home/dev/nexus/verify.py" (launch "/tmp" damaged_disk) in
  let run2 := script "/home/dev/nexus/verify.py" (launch "/tmp" remounted_disk) in
  stdout (snd run1) = stdout (snd run2)
  /\ fst run1 = fst run2
  /\ length (stdout (snd run1)) = 53%nat
  /\ length (syslog (snd run1)) = 37%nat.
Proof.
  intros run1 run2.
  assert (same : forall p, damaged_disk p = remounted_disk p).
  { intros p. unfold remounted_disk.
    destruct (String.eqb p "/home/dev/nexus/setup.sh") eqn:E; [|reflexivity].
    apply String.eqb_eq in E. subst p. reflexivity. }
  destruct (run_deterministic "/home/dev/nexus/verify.py" "/tmp"
              damaged_disk remounted_disk same)
    as (Hout & Hexit & _ & Hlines & Hcalls & _).
  split; [exact Hout|]. split; [exact Hexit|]. split.
  - unfold run1. rewrite Hlines. vm_compute. reflexivity.
  - unfold run1. rewrite Hcalls. vm_compute. reflexivity.
Defined.

(** ** The base directory *)

Lemma starts_with_slash s : starts_with "/" (String "/" s) = true.
Proof. unfold starts_with; simpl. now destruct s. Qed.

Lemma parent_of_absolute file :
  starts_with "/" file = true ->
  starts_with "/" (fspath (parent (Path file))) = true.
Proof.
  intros Habs. unfold fspath, parent, Path; cbn [anchor parts].
  rewrite Habs.
  destruct (starts_with "//" file && negb (starts_with "///" file));
    apply starts_with_slash.
Qed.

Lemma resolve_absolute base path :
  starts_with "/" path = true -> resolve base path = path.
Proof.
  unfold resolve. intros Habs.
  destruct path as [|c path]; [discriminate Habs|].
  cbn [String.eqb]. now rewrite Habs.
Qed.





(** ** Errors of the file system *)

(** C8. When [stat] fails at a path, for lack of permission, for a loop of
    symbolic links or for any other reason, [check_file] and [check_dir]
    return [False] with the failure line and raise nothing.  Neither function
    raises in any world, and the scan always completes after one [stat] for
    each of the 36 entries, in order, whatever the earlier ones answered. *)
Theorem checks_fail_closed (path name : string) (w : world) (e : errno) :
  fs w (resolve (cwd w) path) = StErr e ->
  check_file path name w
  = (Ok false, emit w [RED ++ "✗" ++ RESET ++ " " ++ name ++ " (NOT FOUND)"]
                      [SysStat (resolve (cwd w) path)])
  /\ check_dir path name w
     = (Ok false, emit w [RED ++ "✗" ++ RESET ++ " " ++ name ++ "/ (NOT FOUND)"]
                         [SysStat (resolve (cwd w) path)])
  /\ (forall p n w0, exists found w1, check_file p n w0 = (Ok found, w1))
  /\ (forall p n w0, exists found w1, check_dir p n w0 = (Ok found, w1))
  /\ (forall w0, exists l w1,
        main_scan w0 = (Ok l, w1)
        /\ syslog w1 = (syslog w0 ++ stat_calls (cwd w0) manifest_paths)%list
        /\ length manifest_paths = 36%nat).
Proof.
  intros Herr. repeat split.
  - rewrite check_file_run. unfold is_file. now rewrite Herr.
  - rewrite check_dir_run. unfold is_dir. rewrite Herr.
    unfold result_line, failure_line.
    now rewrite (str_append_assoc name "/").
  - intros p n w0. rewrite check_file_run. eauto.
  - intros p n w0. rewrite check_dir_run. eauto.
  - intros w0. rewrite main_scan_run. eauto.
Qed.

Lemma checks_fail_closed_witness :
  fst (check_file "setup.sh" "Setup script" (in_nexus damaged_disk)) = Ok false
  /\ fst (check_dir "infrastructure/turn" "TURN" (in_nexus damaged_disk)) = Ok false.
Proof.
  split.
  - destruct (checks_fail_closed "setup.sh" "Setup script"
                (in_nexus damaged_disk) ELOOP eq_refl) as (H & _).
    now rewrite H.
  - destruct (checks_fail_closed "infrastructure/turn" "TURN"
                (in_nexus damaged_disk) ENOTDIR eq_refl) as (_ & H & _).
    now rewrite H.
Defined.

(** ** The frame: what a run leaves alone *)

Lemma keeps_disk_ret {A} (a : A) : keeps_disk (ret a).
Proof. intros w; reflexivity. Qed.

Lemma keeps_disk_bind {A B} (m : Py A) (k : A -> Py B) :
  keeps_disk m -> (forall a, keeps_disk (k a)) -> keeps_disk (bind m k).
Proof.
  intros Hm Hk w. unfold bind. specialize (Hm w).
  destruct (m w) as [[a|x] w']; simpl in *; [|assumption].
  now rewrite Hk.
Qed.

Lemma keeps_disk_print s : keeps_disk (print s).
Proof. intros w; reflexivity. Qed.

Lemma keeps_disk_try_except {A} (body : Py A) (handler : exn -> Py A) :
  keeps_disk body -> (forall x, keeps_disk (handler x)) ->
  keeps_disk (try_except body handler).
Proof.
  intros Hb Hh w. unfold try_except. specialize (Hb w).
  destruct (body w) as [[a|x] w']; simpl in *; [assumption|].
  now rewrite Hh.
Qed.

Lemma keeps_disk_os_stat path : keeps_disk (os_stat path).
Proof. intros w. unfold os_stat. destruct (fs w _); reflexivity. Qed.

Lemma keeps_disk_os_chdir path : keeps_disk (os_chdir path).
Proof. intros w. unfold os_chdir. destruct (chdir_error _); reflexivity. Qed.

Lemma keeps_disk_for_each {A L} (body : A -> L -> Py L) (l : list A) :
  (forall a locals, keeps_disk (body a locals)) ->
  forall locals, keeps_disk (for_each l body locals).
Proof.
  intros Hbody. induction l as [|a l IH]; intros locals; simpl.
  - apply keeps_disk_ret.
  - apply keeps_disk_bind; [apply Hbody | exact IH].
Qed.

Lemma keeps_disk_if {A} (b : bool) (m1 m2 : Py A) :
  keeps_disk m1 -> keeps_disk m2 -> keeps_disk (if b then m1 else m2).
Proof. now destruct b. Qed.

Ltac frame :=
  repeat first
    [ apply keeps_disk_bind; [|intros ?]
    | apply keeps_disk_try_except; [|intros ?]
    | apply keeps_disk_for_each; intros [? ?] ?
    | apply keeps_disk_if
    | apply keeps_disk_ret
    | apply keeps_disk_print
    | apply keeps_disk_os_stat
    | apply keeps_disk_os_chdir ].

Lemma keeps_disk_check_file path name : keeps_disk (check_file path name).
Proof. unfold check_file, os_path_isfile. frame. Qed.

Lemma keeps_disk_check_dir path name : keeps_disk (check_dir path name).
Proof. unfold check_dir, os_path_isdir. frame. Qed.

Lemma keeps_disk_main file : keeps_disk (main file).
Proof.
  unfold main, main_scan, main_report, category_body, file_body, dir_body.
  frame; first [apply keeps_disk_check_file | apply keeps_disk_check_dir].
Qed.

(** C9. A run leaves the file system as it found it: [stat] answers at
    every path, the checked ones among them, what it answered before.  What
    the run adds to the world is text on standard output and, in the log of
    system calls, one [chdir] followed by [stat] calls only. *)
Theorem run_leaves_disk_alone (file : string) (w : world) :
  let after := snd (script file w) in
  fs after = fs w
  /\ (forall p, In p manifest_paths ->
        fs after (resolve (cwd after) p) = fs w (resolve (cwd after) p))
  /\ (exists out, stdout after = (stdout w ++ out)%list)
  /\ (exists calls,
        syslog after = (syslog w ++ SysChdir (script_dir file (cwd w)) :: calls)%list
        /\ Forall (fun c => exists p, c = SysStat p) calls).
Proof.
  intros after.
  assert (Hfs : fs after = fs w).
  { unfold after, script. pose proof (keeps_disk_main file w) as H.
    destruct (main file w) as [[code|x] w']; exact H. }
  split; [exact Hfs|]. split; [intros p _; now rewrite Hfs|].
  unfold after. rewrite script_run. cbv zeta.
  destruct (chdir_error _) as [e|]; cbn [snd stdout syslog emit].
  - split; [eauto|]. exists []. split; [reflexivity | constructor].
  - split; [eauto|]. eexists. split; [reflexivity|].
    unfold stat_calls. apply Forall_forall. intros c Hc.
    apply in_map_iff in Hc as (p & <- & _). eauto.
Qed.

(** * Further properties of the script *)

(** ** When the script's directory cannot be entered *)

(** X1. When [os.chdir] refuses the parent of [__file__], [main] raises the
    [OSError] of that refusal right after the title: nothing else is printed,
    no entry is checked, the working directory stays, and the process ends
    with status 1. *)
Theorem chdir_failure_aborts (file : string) (w : world) (e : errno) :
  chdir_error (fs w (script_dir file (cwd w))) = Some e ->
  fst (main file w) = Raise (OSError e)
  /\ stdout (snd (main file w)) = (stdout w ++ [title_line])%list
  /\ syslog (snd (main file w))
     = (syslog w ++ [SysChdir (script_dir file (cwd w))])%list
  /\ cwd (snd (main file w)) = cwd w
  /\ fst (script file w) = 1.
Proof.
  intros Hdir. unfold script. rewrite main_run. cbv zeta. rewrite Hdir.
  repeat split.
Qed.

Lemma chdir_failure_aborts_witness :
  fst (main "/home/dev/nexus/infrastructure/verify.py" (launch "/tmp" damaged_disk))
  = Raise (OSError ENOTDIR)
  /\ fst (script "/home/dev/nexus/infrastructure/verify.py" (launch "/tmp" damaged_disk))
     = 1.
Proof.
  destruct (chdir_failure_aborts "/home/dev/nexus/infrastructure/verify.py"
              (launch "/tmp" damaged_disk) ENOTDIR eq_refl)
    as (Hraise & _ & _ & _ & Hexit).
  split; assumption.
Defined.

(** ** The two checks on one path *)

Lemma is_file_is_dir_exclusive disk base path :
  is_file disk base path && is_dir disk base path = false.
Proof.
  unfold is_file, is_dir. destruct (disk _) as [[| |]|]; reflexivity.
Qed.

(** X2. In one world and on one path, [check_file] and [check_dir] never
    both return [True]: a directory fails [check_file], a regular file fails
    [check_dir], and a node of another kind (a device, a FIFO, a socket)
    fails both, as does the empty path, which [stat] refuses. *)
Theorem checks_exclusive (path name1 name2 : string) (w : world) :
  exists as_file as_dir : bool,
    fst (check_file path name1 w) = Ok as_file
    /\ fst (check_dir path name2 w) = Ok as_dir
    /\ as_file && as_dir = false
    /\ (forall searchable,
          fs w (resolve (cwd w) path) = StOk (Directory searchable) ->
          as_file = false /\ as_dir = true)
    /\ (fs w (resolve (cwd w) path) = StOk Regular ->
          as_file = true /\ as_dir = false)
    /\ (fs w (resolve (cwd w) path) = StOk Other ->
          as_file = false /\ as_dir = false)
    /\ (path = "" -> fs w "" = StErr ENOENT ->
          as_file = false /\ as_dir = false).
Proof.
  exists (is_file (fs w) (cwd w) path), (is_dir (fs w) (cwd w) path).
  rewrite check_file_run, check_dir_run.
  split; [reflexivity|]. split; [reflexivity|].
  split; [apply is_file_is_dir_exclusive|].
  unfold is_file, is_dir.
  split; [|split; [|split]].
  - intros searchable H. rewrite H. split; reflexivity.
  - intros H. rewrite H. split; reflexivity.
  - intros H. rewrite H. split; reflexivity.
  - intros -> H. change (resolve (cwd w) "") with "". rewrite H.
    split; reflexivity.
Qed.

Example backend_cmd_is_no_file :
  fst (check_file "backend/cmd" "Backend commands" (in_nexus complete_disk)) = Ok false.
Proof. reflexivity. Qed.

(** ** The flag never comes back *)

Lemma fold_tally_latch results : forall l,
  all_passed l = false ->
  all_passed (fold_left tally results l) = false
  /\ total_files l <= total_files (fold_left tally results l)
  /\ checked_files l <= checked_files (fold_left tally results l).
Proof.
  intros l Hfalse. rewrite fold_tally. cbn [all_passed total_files checked_files].
  rewrite Hfalse. pose proof (count_found_le results). repeat split; lia.
Qed.

(** X3. Once [all_passed] is false, no later iteration of either loop sets
    it back: after any categories and any directories have been processed it
    is still false, whatever was found, and the two counters have not gone
    down. *)
Theorem all_passed_stays_false
  (l : locals) (w : world)
  (cats : list (string * list (string * string))) (ds : list (string * string)) :
  all_passed l = false ->
  exists l1 w1 l2 w2,
    for_each cats category_body l w = (Ok l1, w1)
    /\ for_each ds dir_body l1 w1 = (Ok l2, w2)
    /\ all_passed l1 = false /\ all_passed l2 = false
    /\ total_files l <= total_files l1 <= total_files l2
    /\ checked_files l <= checked_files l1 <= checked_files l2.
Proof.
  intros Hfalse. do 4 eexists.
  split; [apply for_each_category_body|].
  split; [apply for_each_dir_body|].
  rewrite cwd_emit, fs_emit.
  destruct (fold_tally_latch
              (file_results (fs w) (cwd w) (flat_map snd cats)) l Hfalse)
    as (H1 & H2 & H3).
  destruct (fold_tally_latch (dir_results (fs w) (cwd w) ds) _ H1)
    as (H4 & H5 & H6).
  repeat split; assumption.
Qed.

Lemma all_passed_stays_false_witness :
  exists l2 w2,
    for_each dirs dir_body (mkLocals false 31 30) (in_nexus complete_disk) = (Ok l2, w2)
    /\ all_passed l2 = false.
Proof.
  destruct (all_passed_stays_false (mkLocals false 31 30) (in_nexus complete_disk)
              [] dirs eq_refl)
    as (l1 & w1 & l2 & w2 & Hfiles & Hdirs & _ & Hflag & _).
  injection Hfiles as <- <-.
  exists l2, w2. split; assumption.
Defined.

(** ** Result lines and counters *)

Lemma starts_with_nil s : starts_with "" s = true.
Proof. now destruct s. Qed.

Lemma success_line_marks label :
  starts_with success_mark (success_line label) = true
  /\ starts_with failure_mark (success_line label) = false.
Proof. split; [apply (starts_with_nil label) | reflexivity]. Qed.

Lemma failure_line_marks label :
  starts_with success_mark (failure_line label) = false
  /\ starts_with failure_mark (failure_line label) = true.
Proof.
  split; [reflexivity | apply (starts_with_nil (label ++ " (NOT FOUND)"))].
Qed.

Lemma count_lines_app mark l1 l2 :
  count_lines mark (l1 ++ l2) = count_lines mark l1 + count_lines mark l2.
Proof.
  unfold count_lines. rewrite filter_app, length_app. lia.
Qed.

Lemma count_lines_cons mark s l :
  count_lines mark (s :: l)
  = (if starts_with mark s then 1 else 0) + count_lines mark l.
Proof.
  unfold count_lines; simpl. destruct (starts_with mark s); simpl length; lia.
Qed.

(** The lines of entries whose answers are [results]: as many success lines
    as answers are true, and a failure line for each of the others. *)
Lemma count_result_lines {E} (found : E -> bool) (label : E -> string) entries :
  let lines := map (fun e => result_line (found e) (label e)) entries in
  count_lines success_mark lines = count_found (map found entries)
  /\ count_lines failure_mark lines
     = Z.of_nat (length entries) - count_found (map found entries).
Proof.
  induction entries as [|e entries [IHs IHf]]; [split; reflexivity|].
  cbn zeta. cbn [map]. rewrite !count_lines_cons.
  cbv zeta in IHs, IHf. rewrite IHs, IHf.
  unfold count_found.
  destruct (found e); unfold result_line; cbn [filter length].
  - destruct (success_line_marks (label e)) as [-> ->]. split; lia.
  - destruct (failure_line_marks (label e)) as [-> ->]. split; lia.
Qed.

Lemma count_found_app r1 r2 :
  count_found (r1 ++ r2) = count_found r1 + count_found r2.
Proof. unfold count_found. rewrite filter_app, length_app. lia. Qed.

Lemma count_category_lines disk base cats :
  let lines := flat_map (category_lines disk base) cats in
  let results := file_results disk base (flat_map snd cats) in
  count_lines success_mark lines = count_found results
  /\ count_lines failure_mark lines = Z.of_nat (length results) - count_found results.
Proof.
  cbv zeta. induction cats as [|[category files] cats [IHs IHf]]; [split; reflexivity|].
  cbn [flat_map snd]. unfold category_lines at 1 3. cbn [fst snd app].
  unfold file_results in *. rewrite !map_app, !count_found_app, length_app.
  rewrite !count_lines_cons, !count_lines_app, IHs, IHf.
  destruct (count_result_lines (fun e => is_file disk base (fst e)) snd files)
    as [Hs Hf].
  cbv zeta in Hs, Hf. unfold file_lines. rewrite Hs, Hf.
  rewrite !length_map. cbn. split; lia.
Qed.

(** X4. The result lines and the counters tell the same story: of the lines
    the scan prints, as many begin with the success mark as [checked_files]
    counts, as many begin with the failure mark as [total_files] exceeds
    [checked_files], and no other line begins with either mark. *)
Theorem result_lines_match_counters (w : world) :
  exists l w' out,
    main_scan w = (Ok l, w')
    /\ stdout w' = (stdout w ++ out)%list
    /\ count_lines success_mark out = checked_files l
    /\ count_lines failure_mark out = total_files l - checked_files l.
Proof.
  exists (scan_locals (fs w) (cwd w)),
         (emit w (scan_lines (fs w) (cwd w)) (stat_calls (cwd w) manifest_paths)),
         (scan_lines (fs w) (cwd w)).
  split; [apply main_scan_run|]. split; [reflexivity|].
  rewrite scan_locals_fields. cbn [total_files checked_files].
  destruct (count_category_lines (fs w) (cwd w) checks) as [Hs Hf].
  cbv zeta in Hs, Hf. fold file_entries in Hs, Hf.
  destruct (count_result_lines (fun e => is_dir (fs w) (cwd w) (fst e))
              (fun e => (snd e ++ "/")%string) dirs) as [Hds Hdf].
  cbv zeta in Hds, Hdf.
  fold (dir_lines (fs w) (cwd w) dirs) in Hds, Hdf.
  fold (dir_results (fs w) (cwd w) dirs) in Hds, Hdf.
  unfold scan_lines, manifest_results.
  rewrite !count_lines_app, !count_lines_cons, count_found_app, Hs, Hf, Hds, Hdf.
  replace (length (file_results (fs w) (cwd w) file_entries)) with 31%nat
    by (unfold file_results; now rewrite length_map).
  change (length dirs) with 5%nat.
  change (starts_with success_mark (LF ++ "📁 Directories:")) with false.
  change (starts_with failure_mark (LF ++ "📁 Directories:")) with false.
  change (starts_with success_mark (str_mul "─" 50)) with false.
  change (starts_with failure_mark (str_mul "─" 50)) with false.
  split; lia.
Qed.

Example damaged_run_marks :
  let out := stdout (snd (main_scan (in_nexus damaged_disk))) in
  (count_lines success_mark out, count_lines failure_mark out) = (32, 4).
Proof. vm_compute. reflexivity. Qed.

(** ** Only the manifest's paths matter *)

Section SameManifest.
Variables disk1 disk2 : string -> stat_result.
Variable base : string.
Hypothesis same_entries :
  forall p, In p manifest_paths -> disk1 (resolve base p) = disk2 (resolve base p).

Lemma file_entry_path e : In e file_entries -> In (fst e) manifest_paths.
Proof.
  intros H. unfold manifest_paths. apply in_or_app. left. now apply in_map.
Qed.

Lemma dir_entry_path e : In e dirs -> In (fst e) manifest_paths.
Proof.
  intros H. unfold manifest_paths. apply in_or_app. right. now apply in_map.
Qed.

Lemma is_file_entry e :
  In e file_entries -> is_file disk1 base (fst e) = is_file disk2 base (fst e).
Proof.
  intros H. unfold is_file. now rewrite (same_entries _ (file_entry_path e H)).
Qed.

Lemma is_dir_entry e :
  In e dirs -> is_dir disk1 base (fst e) = is_dir disk2 base (fst e).
Proof.
  intros H. unfold is_dir. now rewrite (same_entries _ (dir_entry_path e H)).
Qed.

Lemma manifest_results_entries :
  manifest_results disk1 base = manifest_results disk2 base.
Proof.
  unfold manifest_results, file_results, dir_results. f_equal;
    apply map_ext_in; intros e H; [now apply is_file_entry | now apply is_dir_entry].
Qed.

Lemma category_lines_entries cats :
  (forall item e, In item cats -> In e (snd item) -> In e file_entries) ->
  flat_map (category_lines disk1 base) cats = flat_map (category_lines disk2 base) cats.
Proof.
  induction cats as [|item cats IH]; intros Hin; [reflexivity|].
  cbn [flat_map]. rewrite IH by (intros i e Hi; apply Hin; now right).
  f_equal. unfold category_lines, file_lines. do 2 f_equal.
  apply map_ext_in. intros e He.
  rewrite is_file_entry; [reflexivity|]. apply (Hin item e); [now left | exact He].
Qed.

Lemma scan_lines_entries : scan_lines disk1 base = scan_lines disk2 base.
Proof.
  unfold scan_lines, dir_lines. f_equal.
  - apply category_lines_entries. intros item e Hitem He.
    unfold file_entries. apply in_flat_map. now exists item.
  - do 2 f_equal. apply map_ext_in. intros e He. now rewrite is_dir_entry.
Qed.
End SameManifest.

(** X5. A run looks at the directory of the script and at the 36 paths of
    the manifest below it, and at nothing else: two file systems that answer
    alike at those 37 places give the same output and the same status,
    however much they differ elsewhere. *)
Theorem run_ignores_other_paths
  (file start : string) (disk1 disk2 : string -> stat_result) :
  let base := script_dir file start in
  disk1 base = disk2 base ->
  (forall p, In p manifest_paths -> disk1 (resolve base p) = disk2 (resolve base p)) ->
  stdout (snd (script file (launch start disk1)))
  = stdout (snd (script file (launch start disk2)))
  /\ fst (script file (launch start disk1)) = fst (script file (launch start disk2)).
Proof.
  intros base Hbase Hsame. rewrite !script_run. cbv zeta.
  unfold launch, script_output; cbn [cwd fs stdout syslog]. cbv zeta.
  fold base. rewrite <- Hbase.
  destruct (chdir_error (disk1 base)) as [e|]; cbn [fst snd stdout emit app].
  - split; reflexivity.
  - unfold scan_locals.
    rewrite (scan_lines_entries disk1 disk2 base Hsame),
            (manifest_results_entries disk1 disk2 base Hsame).
    split; reflexivity.
Qed.

Lemma run_ignores_other_paths_witness :
  stdout (snd (script "/home/dev/nexus/verify.py" (launch "/tmp" complete_disk)))
  = stdout (snd (script "/home/dev/nexus/verify.py" (launch "/tmp" crowded_disk)))
  /\ complete_disk "/home/dev/nexus/notes.txt" <> crowded_disk "/home/dev/nexus/notes.txt".
Proof.
  split; [|discriminate].
  apply (run_ignores_other_paths "/home/dev/nexus/verify.py" "/tmp"
           complete_disk crowded_disk eq_refl).
  intros p Hp. unfold manifest_paths in Hp. cbn in Hp.
  repeat (destruct Hp as [<- | Hp]; [reflexivity|]). destruct Hp.
Defined.

(** ** Calling main again *)

(** X6. With an absolute [__file__], [main] can be called again in the same
    process: the second call, in the world the first one left, ends as the
    first did (the same code, or the same exception) and appends to standard
    output exactly the lines the first call appended. *)
Theorem main_repeatable (file : string) (w : world) :
  starts_with "/" file = true ->
  let first := main file w in
  let second := main file (snd first) in
  fst second = fst first
  /\ stdout (snd first) = (stdout w ++ script_output file (cwd w) (fs w))%list
  /\ stdout (snd second)
     = (stdout (snd first) ++ script_output file (cwd w) (fs w))%list.
Proof.
  intros Habs first second.
  assert (Hbase : forall start, script_dir file start = fspath (parent (Path file))).
  { intros start. unfold script_dir.
    apply resolve_absolute, parent_of_absolute, Habs. }
  assert (Hfirst : first =
    match chdir_error (fs w (fspath (parent (Path file)))) with
    | None =>
        (Ok (if all_passed (scan_locals (fs w) (fspath (parent (Path file))))
             then 0 else 1),
         mkWorld (fspath (parent (Path file))) (fs w)
           (stdout w ++ script_output file (cwd w) (fs w))%list
           (syslog w ++ SysChdir (fspath (parent (Path file)))
                     :: stat_calls (fspath (parent (Path file))) manifest_paths)%list)
    | Some e =>
        (Raise (OSError e),
         emit w (script_output file (cwd w) (fs w))
              [SysChdir (fspath (parent (Path file)))])
    end).
  { unfold first, script_output. rewrite main_run. cbv zeta. rewrite !Hbase.
    destruct (chdir_error _); reflexivity. }
  unfold second. rewrite main_run. cbv zeta. rewrite !Hbase.
  rewrite Hfirst. unfold script_output. cbv zeta. rewrite !Hbase.
  destruct (chdir_error (fs w _)) as [e|] eqn:Hdir;
    cbn [fst snd fs cwd stdout syslog emit]; rewrite Hdir; cbn [fst snd stdout emit];
    repeat split.
Qed.

Lemma main_repeatable_witness :
  let first := main "/home/dev/nexus/verify.py" (launch "/tmp" damaged_disk) in
  fst (main "/home/dev/nexus/verify.py" (snd first)) = fst first.
Proof.
  intros first.
  destruct (main_repeatable "/home/dev/nexus/verify.py" (launch "/tmp" damaged_disk)
              eq_refl) as (Hcode & _).
  exact Hcode.
Defined.

(** With a relative [__file__] the second [chdir] starts from where the first
    one led, and finds nothing there. *)
Example relative_file_second_call :
  let first := main "nexus/verify.py" (launch "/home/dev" complete_disk) in
  fst first = Ok 0
  /\ fst (main "nexus/verify.py" (snd first)) = Raise (OSError ENOENT).
Proof. vm_compute. split; reflexivity. Qed.

(** ** The banner and the status *)

Lemma scan_lines_no_banner disk base s :
  In s (scan_lines disk base) -> starts_with (GREEN ++ "✓ ") s = false.
Proof.
  unfold scan_lines. intros H. apply in_app_or in H as [H | H].
  - apply in_flat_map in H as (item & _ & H). unfold category_lines in H.
    destruct H as [<- | [<- | H]]; [reflexivity | reflexivity |].
    unfold file_lines in H. apply in_map_iff in H as (e & <- & _).
    destruct (is_file _ _ _); reflexivity.
  - destruct H as [<- | [<- | H]]; [reflexivity | reflexivity |].
    unfold dir_lines in H. apply in_map_iff in H as (e & <- & _).
    destruct (is_dir _ _ _); reflexivity.
Qed.

(** X7. The banner agrees with the status: the line
    [All files and directories present!] is among the lines a run prints
    exactly when the process ends with status 0. *)
Theorem banner_matches_status (file : string) (w : world) :
  let out := script_output file (cwd w) (fs w) in
  stdout (snd (script file w)) = (stdout w ++ out)%list
  /\ (In success_banner out <-> fst (script file w) = 0).
Proof.
  intros out. unfold out. rewrite script_run. cbv zeta. unfold script_output.
  destruct (chdir_error _) as [e|]; cbn [fst snd stdout emit].
  - split; [reflexivity|]. split.
    + intros [H | []]. discriminate H.
    + intros H. discriminate H.
  - split; [reflexivity|]. unfold report_lines.
    destruct (all_passed _).
    + split; intros _; [reflexivity|].
      right. apply in_or_app. right. right. right. now left.
    + split; [|intros H; discriminate H].
      intros [H | H]; [discriminate H|].
      apply in_app_or in H as [H | H].
      * apply scan_lines_no_banner in H. discriminate H.
      * destruct H as [H | [H | H]]; [discriminate H | discriminate H |].
        destruct H as [H | [H | []]]; discriminate H.
Qed.

(** ** Which entries are reported missing *)

Lemma filter_result_lines {E} (found : E -> bool) (label : E -> string) entries :
  filter (starts_with failure_mark)
         (map (fun e => result_line (found e) (label e)) entries)
  = map (fun e => failure_line (label e)) (filter (fun e => negb (found e)) entries).
Proof.
  induction entries as [|e entries IH]; [reflexivity|].
  cbn [map filter]. rewrite IH. unfold result_line.
  destruct (found e); cbn [negb].
  - now destruct (success_line_marks (label e)) as [_ ->].
  - now destruct (failure_line_marks (label e)) as [_ ->].
Qed.

Lemma filter_skip mark s l :
  starts_with mark s = false ->
  filter (starts_with mark) (s :: l) = filter (starts_with mark) l.
Proof. intros H. cbn [filter]. now rewrite H. Qed.

Lemma report_lines_unmarked l :
  filter (starts_with failure_mark) (report_lines l) = [].
Proof. unfold report_lines. destruct (all_passed l); reflexivity. Qed.

Lemma filter_category_lines disk base cats :
  filter (starts_with failure_mark) (flat_map (category_lines disk base) cats)
  = map (fun e => failure_line (snd e))
        (filter (fun e => negb (is_file disk base (fst e))) (flat_map snd cats)).
Proof.
  induction cats as [|[category files] cats IH]; [reflexivity|].
  cbn [flat_map snd]. rewrite !filter_app, map_app, IH. f_equal.
  unfold category_lines, file_lines. cbn [fst snd].
  rewrite !filter_skip by reflexivity.
  apply (filter_result_lines (fun e => is_file disk base (fst e)) snd).
Qed.

Lemma marked_lines_of_run disk base :
  filter (starts_with failure_mark)
         (title_line :: scan_lines disk base ++ report_lines (scan_locals disk base))
  = map failure_line (missing_labels disk base).
Proof.
  rewrite filter_skip by reflexivity.
  rewrite filter_app, report_lines_unmarked, app_nil_r.
  unfold scan_lines. rewrite filter_app, filter_category_lines.
  rewrite !filter_skip by reflexivity.
  fold file_entries. unfold missing_labels, dir_lines.
  rewrite map_app, !map_map. f_equal.
  apply (filter_result_lines (fun e => is_dir disk base (fst e))
           (fun e => (snd e ++ "/")%string)).
Qed.

(** X8. Of the lines a run prints once it has entered the script's
    directory, those that begin with the failure mark are the failure lines
    of the entries that were not found, one for each and in the order of the
    manifest: an entry that is there is never reported missing, and the
    failure banner is not taken for an entry. *)
Theorem failure_lines_are_missing_entries (file : string) (w : world) :
  let base := script_dir file (cwd w) in
  chdir_error (fs w base) = None ->
  exists out,
    stdout (snd (main file w)) = (stdout w ++ out)%list
    /\ filter (starts_with failure_mark) out
       = map failure_line (missing_labels (fs w) base).
Proof.
  intros base Hdir.
  exists (title_line :: scan_lines (fs w) base
          ++ report_lines (scan_locals (fs w) base))%list.
  split.
  - rewrite main_run. cbv zeta. fold base. now rewrite Hdir.
  - apply marked_lines_of_run.
Qed.

Lemma failure_lines_are_missing_entries_witness :
  filter (starts_with failure_mark)
    (stdout (snd (main "/home/dev/nexus/verify.py" (launch "/tmp" damaged_disk))))
  = [ failure_line "Cassandra schema"; failure_line "TURN config";
      failure_line "Setup script"; failure_line "Infrastructure/" ].
Proof.
  destruct (failure_lines_are_missing_entries "/home/dev/nexus/verify.py"
              (launch "/tmp" damaged_disk) eq_refl) as (out & Hout & Hlines).
  rewrite Hout. cbn [launch stdout app]. rewrite Hlines.
  vm_compute. reflexivity.
Defined.

(** ** Status 1 without a missing entry *)

Lemma none_missing_iff {E} (found : E -> bool) (entries : list E) :
  filter (fun e => negb (found e)) entries = []
  <-> forallb (fun b => b) (map found entries) = true.
Proof.
  induction entries as [|e entries IH]; cbn [filter map forallb]; [tauto|].
  destruct (found e); cbn [negb andb].
  - exact IH.
  - split; discriminate.
Qed.

Lemma missing_labels_nil disk base :
  missing_labels disk base = []
  <-> forallb (fun b => b) (manifest_results disk base) = true.
Proof.
  unfold missing_labels, manifest_results, file_results, dir_results.
  rewrite forallb_app, andb_true_iff,
    <- (none_missing_iff (fun e => is_file disk base (fst e)) file_entries),
    <- (none_missing_iff (fun e => is_dir disk base (fst e)) dirs).
  split.
  - intros H. apply app_eq_nil in H as [H1 H2].
    apply map_eq_nil in H1, H2. now split.
  - intros [-> ->]. reflexivity.
Qed.

(** X9. The process ends with status 0 exactly when it could enter the
    script's directory and printed no failure line for an entry.  So a status
    of 1 with no entry reported missing means that the [chdir] was refused. *)
Theorem status_0_iff_nothing_reported (file : string) (w : world) :
  let base := script_dir file (cwd w) in
  let marked := filter (starts_with failure_mark) (script_output file (cwd w) (fs w)) in
  (fst (script file w) = 0 <-> chdir_error (fs w base) = None /\ marked = [])
  /\ (fst (script file w) = 1 /\ marked = [] <-> exists e, chdir_error (fs w base) = Some e).
Proof.
  intros base marked. unfold marked, script_output. rewrite script_run.
  cbv zeta. fold base.
  destruct (chdir_error (fs w base)) as [e|]; cbn [fst].
  - split; split.
    + discriminate.
    + intros [H _]. discriminate H.
    + intros _. now exists e.
    + intros _. split; reflexivity.
  - rewrite marked_lines_of_run, scan_locals_fields. cbn [all_passed].
    pose proof (missing_labels_nil (fs w) base) as Hnil.
    destruct (forallb _ _); split; split.
    + intros _. split; [reflexivity|].
      destruct Hnil as [_ Hnil]. now rewrite (Hnil eq_refl).
    + reflexivity.
    + intros [H _]. discriminate H.
    + intros [e H]. discriminate H.
    + discriminate.
    + intros [_ H]. apply map_eq_nil in H. apply Hnil in H. discriminate H.
    + intros [_ H]. apply map_eq_nil in H. apply Hnil in H. discriminate H.
    + intros [e H]. discriminate H.
Qed.
